(** * iris-js: the advertising client [IrisClient] and the React view [IrisAd]

    A shallow embedding of [packages/api/src/IrisClient.ts] and
    [packages/react/src/IrisAd.tsx].  JavaScript values are an inductive
    type, objects are finite maps from property names to values, arrays
    that can be shared between the caller and the client live in a store
    and are named by references, and every side effect (console output,
    HTTP requests, [fetch], [window.open], callbacks) is appended to a
    trace. *)

From Stdlib Require Import Floats.PrimFloat.
From stdpp Require Import gmap strings list.

Set Warnings "-inexact-float,-register-all".
Local Open Scope string_scope.

(** ** JavaScript values and the evaluation monad *)

Module JS.

(** [VRef l] is a reference to a mutable array of strings held in the
    store at address [l]; two references are the same array exactly when
    the addresses agree. *)
Inductive value : Type :=
| VUndefined
| VNull
| VBool (b : bool)
| VNum (f : float)
| VStr (s : string)
| VObj (fields : gmap string value)
| VRef (l : nat).

(** An object literal [{k1: v1, ..., kn: vn}]. *)
Definition obj (kvs : list (string * value)) : value :=
  VObj (list_to_map kvs).

(** ToBoolean: [undefined], [null], [false], [+0], [-0], [NaN] and the
    empty string are falsy; everything else is truthy. *)
Definition truthy (v : value) : bool :=
  match v with
  | VUndefined | VNull => false
  | VBool b => b
  | VNum f => negb (PrimFloat.eqb f 0 || negb (PrimFloat.eqb f f))
  | VStr s => negb (String.eqb s "")
  | VObj _ | VRef _ => true
  end.

(** [a ?? b]. *)
Definition nullish (a b : value) : value :=
  match a with
  | VUndefined | VNull => b
  | _ => a
  end.

(** A default parameter value [x = d] applies only to [undefined]. *)
Definition default_param (x d : value) : value :=
  match x with
  | VUndefined => d
  | _ => x
  end.

(** The store of shared arrays and the trace of observable effects. *)
Inductive effect : Type :=
| ConsoleError (args : list value)
| HttpPost (path : string) (body : value)
| Fetch (input : value) (init : value)
| WindowOpen (url : value) (target features : string)
| Invoke (callback : nat) (url : value) (event : nat).

Record world : Type := World {
  heap : gmap nat (list string);
  trace : list effect
}.

(** A computation either completes normally or throws a value. *)
Inductive completion (A : Type) : Type :=
| Normal (a : A)
| Throw (e : value).
Arguments Normal {A} a.
Arguments Throw {A} e.

Definition M (S A : Type) : Type := S -> completion A * S.

Definition ret {S A} (a : A) : M S A := fun s => (Normal a, s).

Definition bind {S A B} (c : M S A) (k : A -> M S B) : M S B :=
  fun s =>
    match c s with
    | (Normal a, s') => k a s'
    | (Throw e, s') => (Throw e, s')
    end.

Definition throw {S A} (e : value) : M S A := fun s => (Throw e, s).

(** [try { body } catch (error) { handler(error) }]. *)
Definition try_catch {S A} (body : M S A) (handler : value -> M S A) : M S A :=
  fun s =>
    match body s with
    | (Normal a, s') => (Normal a, s')
    | (Throw e, s') => handler e s'
    end.

Definition TypeError (message : string) : value :=
  obj [("name", VStr "TypeError"); ("message", VStr message)].

(** Property read [v.k].  Reading from [undefined] or [null] throws a
    TypeError.  A missing property reads as [undefined]; so does any of
    the property names used in this code base on a primitive or on an
    array, none of them being defined on the built-in prototypes. *)
Definition get_prop {S} (v : value) (k : string) : M S value :=
  match v with
  | VUndefined | VNull =>
      throw (TypeError ("Cannot read properties of undefined or null (reading '" +:+ k +:+ "')"))
  | VObj fields => ret (default VUndefined (fields !! k))
  | VBool _ | VNum _ | VStr _ | VRef _ => ret VUndefined
  end.

(** Appending one effect to the trace. *)
Definition emit (e : effect) : M world unit :=
  fun w => (Normal tt, World (heap w) (trace w ++ [e])).

End JS.

Import JS.

Notation "'let*' x ':=' c 'in' k" := (bind c (fun x => k))
  (at level 10, x name, c at level 100, k at level 200).
Notation "c1 '>>' c2" := (bind c1 (fun _ => c2))
  (at level 100, c2 at level 200, right associativity).

(** ** The host environment: console, shared arrays, axios *)

Module Host.

(** [console.error(...args)]. *)
Definition console_error (args : list value) : M world unit :=
  emit (ConsoleError args).

(** [[...xs]]: a fresh array holding the elements of the array at [l]. *)
Definition spread (l : nat) : M world nat :=
  fun w =>
    match heap w !! l with
    | Some xs =>
        let r := fresh (dom (heap w)) in
        (Normal r, World (<[r := xs]> (heap w)) (trace w))
    | None => (Throw (TypeError "object is not iterable"), w)
    end.

(** What code outside the client can do to an array it holds a reference
    to: [xs.push(x)], and any other in-place update (splice, assignment
    to an index or to [length]) that leaves the array with contents
    [xs']. *)
Definition array_push (l : nat) (x : string) : M world unit :=
  fun w =>
    match heap w !! l with
    | Some xs => (Normal tt, World (<[l := (xs ++ [x])%list]> (heap w)) (trace w))
    | None => (Throw (TypeError "push is not a function"), w)
    end.

Definition array_overwrite (l : nat) (xs' : list string) : M world unit :=
  fun w =>
    match heap w !! l with
    | Some _ => (Normal tt, World (<[l := xs']> (heap w)) (trace w))
    | None => (Throw (TypeError "not an array"), w)
    end.

(** [fetch(input, init)]; the returned promise is dropped by the caller. *)
Definition fetch (input init : value) : M world unit :=
  emit (Fetch input init).

(** [window.open(url, target, features)]. *)
Definition window_open (url : value) (target features : string) : M world unit :=
  emit (WindowOpen url target features).

(** A call of a function value supplied by the embedding application. *)
Definition invoke (callback : nat) (url : value) (event : nat) : M world unit :=
  emit (Invoke callback url event).

(** The elements an array reference denotes in a given world; this is
    what JSON serialisation of a request body puts on the wire. *)
Definition deref (w : world) (v : value) : option (list string) :=
  match v with
  | VRef l => heap w !! l
  | _ => None
  end.

End Host.

Module Axios.

(** The part of an axios response this code reads or the tests set. *)
Record AxiosResponse : Type := {
  data : value;
  status : nat;
  statusText : string
}.

(** How the promise returned by [post] settles. *)
Inductive settled : Type :=
| Fulfilled (response : AxiosResponse)
| Rejected (reason : value).

(** [axios.create(config)]: the instance is represented by its configuration. *)
Definition create (config : value) : value := config.

(** [await instance.post(path, body)]: the request is issued, and the
    caller resumes with the response or with the rejection thrown. *)
Definition post (instance : value) (path : string) (body : value)
    (reply : settled) : M world AxiosResponse :=
  emit (HttpPost path body) >>
  match reply with
  | Fulfilled response => ret response
  | Rejected reason => throw reason
  end.

(** axios' own [isAxiosError]: an object whose [isAxiosError] property is
    [true]. *)
Definition isAxiosError (payload : value) : bool :=
  match payload with
  | VObj fields =>
      match fields !! "isAxiosError" with
      | Some (VBool true) => true
      | _ => false
      end
  | _ => false
  end.

End Axios.

(** ** [IrisClient] *)

Module IrisClient.

(** The private fields of a client.  [excludedTopics] holds an array
    reference, as the field of the class does. *)
Record t : Type := {
  apiKey : string;
  excludedTopics : nat;
  httpClient : value
}.

Definition constructor (apiKey : string) (excludedTopics : nat) : t :=
  {| apiKey := apiKey;
     excludedTopics := excludedTopics;
     httpClient :=
       Axios.create
         (obj [("baseURL", VStr "https://api.iristech.dev");
               ("timeout", VNum 10000);
               ("headers",
                obj [("Content-Type", VStr "application/json");
                     ("Authorization", VStr ("Bearer " +:+ apiKey))])]) |}.

Definition updateExcludedTopics (this : t) (excludedTopics : nat) : t :=
  {| apiKey := apiKey this;
     excludedTopics := excludedTopics;
     httpClient := httpClient this |}.

Definition getExcludedTopics (this : t) : M world nat :=
  Host.spread (excludedTopics this).

Section WithAxios.

(** [axios.isAxiosError], which the tests replace by mocks. *)
Variable isAxiosError : value -> bool.

Definition handleError (error : value) (method : string) : M world unit :=
  if isAxiosError error then
    let axiosError := error in
    let* response := get_prop axiosError "response" in
    if truthy response then
      let* r1 := get_prop axiosError "response" in
      let* status := get_prop r1 "status" in
      let* r2 := get_prop axiosError "response" in
      let* statusText := get_prop r2 "statusText" in
      let* r3 := get_prop axiosError "response" in
      let* data := get_prop r3 "data" in
      Host.console_error
        [VStr ("[IrisClient." +:+ method +:+ "] API Error:");
         obj [("status", status); ("statusText", statusText); ("data", data)]]
    else
      let* request := get_prop axiosError "request" in
      if truthy request then
        let* code := get_prop axiosError "code" in
        Host.console_error
          [VStr ("[IrisClient." +:+ method +:+ "] Network Error:");
           obj [("message", VStr "No response received from server");
                ("code", code)]]
      else
        let* message := get_prop axiosError "message" in
        Host.console_error
          [VStr ("[IrisClient." +:+ method +:+ "] Request Error:"); message]
  else
    Host.console_error
      [VStr ("[IrisClient." +:+ method +:+ "] Unexpected Error:"); error].

(** [reply] is how the POST settles; everything else is the method body. *)
Definition getAd (this : t) (inputPrompt responsePrompt userId : string)
    (reply : Axios.settled) : M world value :=
  try_catch
    (let* response :=
       Axios.post (httpClient this) "/bids"
         (obj [("apiKey", VStr (apiKey this));
               ("inputPrompt", VStr inputPrompt);
               ("responsePrompt", VStr responsePrompt);
               ("userId", VStr userId);
               ("excludedTopics", VRef (excludedTopics this))])
         reply in
     let* valid :=
       (if truthy (Axios.data response)
        then get_prop (Axios.data response) "text"
        else ret (Axios.data response)) in
     if truthy valid then
       let* text := get_prop (Axios.data response) "text" in
       let* impUrl := get_prop (Axios.data response) "impUrl" in
       let* clickUrl := get_prop (Axios.data response) "clickUrl" in
       let* payout := get_prop (Axios.data response) "payout" in
       ret (obj [("text", text);
                 ("impUrl", impUrl);
                 ("clickUrl", clickUrl);
                 ("payout", payout)])
     else
       ret VNull)
    (fun error => handleError error "getAd" >> ret VNull).

End WithAxios.

End IrisClient.

(** ** The React runtime, as far as a function component with effect hooks
       needs it

    This follows [renderWithHooks] of react-reconciler.  The hooks of the
    last committed render are the fiber's [memoizedState]; the empty list
    stands for [null].  Before the component function is called the
    work-in-progress state is reset, and the mount dispatcher is selected
    when there is no current fiber or its [memoizedState] is [null], the
    update dispatcher otherwise. *)

Module React.

Inductive attr : Type :=
| Attr (v : value)
| OnClick (handler : nat -> M world unit).

Inductive node : Type :=
| Element (tag : string) (attrs : list (string * attr)) (children : list node)
| Text (v : value).

(** An effect hook whose dependency array is the literal [[]]. *)
Record Hook : Type := { create : M world unit }.

Record Hooks : Type := {
  mounting : bool;
  currentHook : list Hook;
  workInProgress : list Hook;
  passive : list (M world unit)
}.

Definition Error (message : string) : value :=
  obj [("name", VStr "Error"); ("message", VStr message)].

(** [useEffect(create, [])].  On mount the effect is scheduled.  On update
    the next hook of the current fiber is taken; its dependencies [[]]
    equal the new ones, so nothing is scheduled. *)
Definition useEffect (create : M world unit) : M Hooks unit :=
  fun h =>
    if mounting h then
      (Normal tt,
       {| mounting := true;
          currentHook := currentHook h;
          workInProgress := workInProgress h ++ [{| create := create |}];
          passive := passive h ++ [create] |})
    else
      match currentHook h with
      | [] => (Throw (Error "Rendered more hooks than during the previous render."), h)
      | _ :: next =>
          (Normal tt,
           {| mounting := false;
              currentHook := next;
              workInProgress := workInProgress h ++ [{| create := create |}];
              passive := passive h |})
      end.

Definition renderWithHooks {P : Type} (current : list Hook)
    (Component : P -> M Hooks (option node)) (props : P)
    : completion (option node * list Hook * list (M world unit)) :=
  let dispatcher :=
    {| mounting := match current with [] => true | _ => false end;
       currentHook := current;
       workInProgress := [];
       passive := [] |} in
  match Component props dispatcher with
  | (Normal children, h) =>
      let didRenderTooFewHooks :=
        negb (mounting h)
        && match workInProgress h with [] => false | _ => true end
        && match currentHook h with [] => false | _ => true end in
      if didRenderTooFewHooks
      then Throw (Error "Rendered fewer hooks than expected. This may be caused by an accidental early return statement.")
      else Normal (children, workInProgress h, passive h)
  | (Throw e, _) => Throw e
  end.

(** Passive effects run in order once the render is committed. *)
Fixpoint flushPassiveEffects (effects : list (M world unit)) : M world unit :=
  match effects with
  | [] => ret tt
  | create :: rest => create >> flushPassiveEffects rest
  end.

(** One render of a mounted instance and its commit: the new
    [memoizedState] and the output. *)
Definition render {P : Type} (Component : P -> M Hooks (option node))
    (current : list Hook) (props : P) : M world (list Hook * option node) :=
  match renderWithHooks current Component props with
  | Normal (children, hooks, effects) =>
      flushPassiveEffects effects >> ret (hooks, children)
  | Throw e => throw e
  end.

(** The life of one instance: it is mounted with the first props of
    [history] and re-rendered with each of the following ones.  An error
    thrown while rendering ends it. *)
Fixpoint renders {P : Type} (Component : P -> M Hooks (option node))
    (current : list Hook) (history : list P) : M world (list Hook) :=
  match history with
  | [] => ret current
  | props :: later =>
      let* r := render Component current props in
      renders Component (fst r) later
  end.

End React.

(** ** [IrisAd] *)

Module IrisAd.

Record IrisAdProps : Type := {
  ad : value;
  className : value;
  textClassName : value;
  buttonClassName : value;
  buttonText : value;
  onButtonClick : option nat;
  show : value
}.

(** The effect passed to [useEffect]. *)
Definition fireImpression (ad : value) : M world unit :=
  let* impUrl := get_prop ad "impUrl" in
  if negb (truthy impUrl) then ret tt
  else
    try_catch
      (let* input := get_prop ad "impUrl" in
       Host.fetch input (obj [("method", VStr "GET"); ("mode", VStr "no-cors")]))
      (fun _ => ret tt).

Definition handleButtonClick (ad : value) (onButtonClick : option nat)
    (event : nat) : M world unit :=
  let* targetUrl := get_prop ad "clickUrl" in
  match onButtonClick with
  | Some callback => Host.invoke callback (nullish targetUrl (VStr "")) event
  | None =>
      if truthy targetUrl
      then Host.window_open targetUrl "_blank" "noopener,noreferrer"
      else ret tt
  end.

Definition IrisAd (props : IrisAdProps) : M React.Hooks (option React.node) :=
  let ad := ad props in
  let className := className props in
  let textClassName := textClassName props in
  let buttonClassName := buttonClassName props in
  let buttonText := default_param (buttonText props) (VStr "Learn More") in
  let onButtonClick := onButtonClick props in
  let show := default_param (show props) (VBool true) in
  if negb (truthy show) || negb (truthy ad) then ret None
  else
    React.useEffect (fireImpression ad) >>
    let* text := get_prop ad "text" in
    ret (Some
      (React.Element "div"
         [("className", React.Attr className);
          ("data-iris-ad", React.Attr (VStr "container"))]
         [React.Element "p"
            [("className", React.Attr textClassName);
             ("data-iris-ad", React.Attr (VStr "text"))]
            [React.Text text];
          React.Element "button"
            [("type", React.Attr (VStr "button"));
             ("className", React.Attr buttonClassName);
             ("onClick", React.OnClick (handleButtonClick ad onButtonClick));
             ("data-iris-ad", React.Attr (VStr "button"))]
            [React.Text buttonText]])).

End IrisAd.

(** ** Vocabulary of the statements *)

Module Spec.

(** The value read by [v.k] when [v] is not [undefined] or [null]. *)
Definition field (v : value) (k : string) : value :=
  match v with
  | VObj fields => default VUndefined (fields !! k)
  | _ => VUndefined
  end.

(** A value is present when it is neither [undefined] nor [null]. *)
Definition present (v : value) : bool :=
  match v with
  | VUndefined | VNull => false
  | _ => true
  end.

(** The four advertisement fields, copied from a response body. *)
Definition advertisement (data : value) : value :=
  obj [("text", field data "text");
       ("impUrl", field data "impUrl");
       ("clickUrl", field data "clickUrl");
       ("payout", field data "payout")].

(** The body of the request [getAd] posts. *)
Definition bidRequest (this : IrisClient.t)
    (inputPrompt responsePrompt userId : string) : value :=
  obj [("apiKey", VStr (IrisClient.apiKey this));
       ("inputPrompt", VStr inputPrompt);
       ("responsePrompt", VStr responsePrompt);
       ("userId", VStr userId);
       ("excludedTopics", VRef (IrisClient.excludedTopics this))].

(** Response bodies that carry no advertisement: the body is [undefined]
    or [null], or it is an object without a [text] property. *)
Inductive no_ad_body : value -> Prop :=
| body_undefined : no_ad_body VUndefined
| body_null : no_ad_body VNull
| body_without_text fields :
    fields !! "text" = None -> no_ad_body (VObj fields).

(** The world after [getAd] has posted its request and nothing else
    has happened. *)
Definition posted (this : IrisClient.t)
    (inputPrompt responsePrompt userId : string) (w : world) : world :=
  World (heap w)
    (trace w ++ [HttpPost "/bids" (bidRequest this inputPrompt responsePrompt userId)]).

Definition is_console_error (e : effect) : bool :=
  match e with
  | ConsoleError _ => true
  | _ => false
  end.

(** The failure taxonomy: the arguments of the one [console.error] call
    expected for a rejection [reason] of the POST made by [getAd]. *)
Inductive diagnostic (isAxiosError : value -> bool) (reason : value)
    : list value -> Prop :=
| ServerError :
    isAxiosError reason = true ->
    truthy (field reason "response") = true ->
    diagnostic isAxiosError reason
      [VStr "[IrisClient.getAd] API Error:";
       obj [("status", field (field reason "response") "status");
            ("statusText", field (field reason "response") "statusText");
            ("data", field (field reason "response") "data")]]
| NoResponse :
    isAxiosError reason = true ->
    truthy (field reason "response") = false ->
    truthy (field reason "request") = true ->
    diagnostic isAxiosError reason
      [VStr "[IrisClient.getAd] Network Error:";
       obj [("message", VStr "No response received from server");
            ("code", field reason "code")]]
| RequestError :
    isAxiosError reason = true ->
    truthy (field reason "response") = false ->
    truthy (field reason "request") = false ->
    diagnostic isAxiosError reason
      [VStr "[IrisClient.getAd] Request Error:"; field reason "message"]
| UnexpectedError :
    isAxiosError reason = false ->
    diagnostic isAxiosError reason
      [VStr "[IrisClient.getAd] Unexpected Error:"; reason].

(** The component is active when [show] (true unless given) and the
    advertisement are both truthy. *)
Definition active (props : IrisAd.IrisAdProps) : bool :=
  truthy (default_param (IrisAd.show props) (VBool true))
  && truthy (IrisAd.ad props).

(** The impression request of an advertisement, if its [impUrl] is truthy. *)
Definition impression_of (ad : value) : list effect :=
  if truthy (field ad "impUrl")
  then [Fetch (field ad "impUrl")
          (obj [("method", VStr "GET"); ("mode", VStr "no-cors")])]
  else [].

(** The full structure: a container holding the text region and the
    button, each with its [data-iris-ad] marker. *)
Definition structure (className textClassName buttonClassName text label : value)
    (onClick : nat -> M world unit) : React.node :=
  React.Element "div"
    [("className", React.Attr className);
     ("data-iris-ad", React.Attr (VStr "container"))]
    [React.Element "p"
       [("className", React.Attr textClassName);
        ("data-iris-ad", React.Attr (VStr "text"))]
       [React.Text text];
     React.Element "button"
       [("type", React.Attr (VStr "button"));
        ("className", React.Attr buttonClassName);
        ("onClick", React.OnClick onClick);
        ("data-iris-ad", React.Attr (VStr "button"))]
       [React.Text label]].

Definition rendered (props : IrisAd.IrisAdProps) : React.node :=
  structure (IrisAd.className props) (IrisAd.textClassName props)
    (IrisAd.buttonClassName props)
    (field (IrisAd.ad props) "text")
    (default_param (IrisAd.buttonText props) (VStr "Learn More"))
    (IrisAd.handleButtonClick (IrisAd.ad props) (IrisAd.onButtonClick props)).

(** The impression requests of one instance over its renders, where
    [mounted] tells whether the previous render was active: a request is
    made at each render that is active while the previous one was not. *)
Fixpoint impressions (mounted : bool) (history : list IrisAd.IrisAdProps)
    : list effect :=
  match history with
  | [] => []
  | props :: later =>
      if active props
      then (if mounted then [] else impression_of (IrisAd.ad props))
             ++ impressions true later
      else impressions false later
  end.

(** The diagnostic log: the [console.error] calls of a trace. *)
Definition console_errors (w : world) : list effect :=
  List.filter is_console_error (trace w).

End Spec.

Import Spec.

(** ** Concrete inputs, taken from the test suites *)

Module Samples.

Definition topics : list string := ["politics"; "adult"].

(** A world in which the caller has allocated its topic array at address 0. *)
Definition world0 : world := World {[ 0 := topics ]} [].

Definition client : IrisClient.t := IrisClient.constructor "test-api-key-12345" 0.


Definition respond (data : value) : Axios.settled :=
  Axios.Fulfilled {| Axios.data := data; Axios.status := 200; Axios.statusText := "OK" |}.

Definition body_null_urls : value :=
  obj [("text", VStr "Try our weather app!");
       ("impUrl", VNull);
       ("clickUrl", VNull);
       ("payout", VNum (-0.1));
       ("url", VStr "https://example.com")].

Definition body_empty_text : value :=
  obj [("text", VStr "");
       ("impUrl", VStr "https://api.iristech.dev/impression?id=abc123");
       ("clickUrl", VStr "https://api.iristech.dev/click?id=abc123");
       ("payout", VNum 0.15)].

Definition body_without_text : value :=
  obj [("impUrl", VStr "https://api.iristech.dev/impression?id=abc123");
       ("clickUrl", VStr "https://api.iristech.dev/click?id=abc123");
       ("payout", VNum 0.15)].

(** The rejections of the error-handling tests. *)
Definition httpError : value :=
  obj [("name", VStr "AxiosError");
       ("message", VStr "Request failed with status code 404");
       ("response",
        obj [("status", VNum 404);
             ("statusText", VStr "Not Found");
             ("data", obj [("error", VStr "Endpoint not found")])]);
       ("isAxiosError", VBool true)].

Definition timeoutError : value :=
  obj [("name", VStr "AxiosError");
       ("message", VStr "timeout of 10000ms exceeded");
       ("code", VStr "ECONNABORTED");
       ("request", obj []);
       ("isAxiosError", VBool true)].

(** The advertisement and the props of the component tests. *)
Definition mockAd : value :=
  obj [("text", VStr "Test Advertisement Text");
       ("impUrl", VStr "https://api.example.com/impression?id=123");
       ("clickUrl", VStr "https://api.example.com/click?id=123&redirect=https://example.com/landing");
       ("payout", VNum 0.25)].

Definition adWithEmptyClickUrl : value :=
  obj [("text", VStr "Test Advertisement Text");
       ("impUrl", VStr "https://api.example.com/impression?id=123");
       ("clickUrl", VStr "");
       ("payout", VNum 0.25)].

Definition adWithEmptyText : value := obj [("text", VStr "")].

Definition props (ad show : value) : IrisAd.IrisAdProps :=
  {| IrisAd.ad := ad;
     IrisAd.className := VUndefined;
     IrisAd.textClassName := VUndefined;
     IrisAd.buttonClassName := VUndefined;
     IrisAd.buttonText := VUndefined;
     IrisAd.onButtonClick := None;
     IrisAd.show := show |}.

Definition getAd (reply : Axios.settled) : M world value :=
  IrisClient.getAd Axios.isAxiosError client
    "What is the weather like?" "The weather is sunny today." "user-123" reply.

End Samples.

(** ** Callers: the README's usage, the tests' queries, the host's [fetch] *)

Module Usage.

(** [[...xs, e1, ..., en]]: a fresh array holding the elements of the array
    at [l] followed by [extra]. *)
Definition spread_with (l : nat) (extra : list string) : M world nat :=
  fun w =>
    match heap w !! l with
    | Some xs =>
        let r := fresh (dom (heap w)) in
        (Normal r, World (<[r := (xs ++ extra)%list]> (heap w)) (trace w))
    | None => (Throw (TypeError "object is not iterable"), w)
    end.

(** README, Dynamic Topic Management:
    [const current = client.getExcludedTopics();
     client.updateExcludedTopics([...current, ...extra]);] *)
Definition addExcludedTopics (this : IrisClient.t) (extra : list string)
    : M world IrisClient.t :=
  let* current := IrisClient.getExcludedTopics this in
  let* extended := spread_with current extra in
  ret (IrisClient.updateExcludedTopics this extended).

(** The effect of [IrisAd] with the host's [fetch] taken as a parameter, so
    that a [fetch] that throws synchronously can be supplied. *)
Definition fireImpression (fetch : value -> value -> M world unit) (ad : value)
    : M world unit :=
  let* impUrl := get_prop ad "impUrl" in
  if negb (truthy impUrl) then ret tt
  else
    try_catch
      (let* input := get_prop ad "impUrl" in
       fetch input (obj [("method", VStr "GET"); ("mode", VStr "no-cors")]))
      (fun _ => ret tt).

(** The attributes of the [button] elements of a tree, in document order:
    what [screen.getAllByRole('button')] finds. *)
Fixpoint buttons (n : React.node) : list (list (string * React.attr)) :=
  match n with
  | React.Element tag attrs children =>
      ((if String.eqb tag "button" then [attrs] else [])
       ++ List.flat_map buttons children)%list
  | React.Text _ => []
  end.

Fixpoint onClick_of (attrs : list (string * React.attr))
    : option (nat -> M world unit) :=
  match attrs with
  | [] => None
  | (name, React.OnClick handler) :: rest =>
      if String.eqb name "onClick" then Some handler else onClick_of rest
  | _ :: rest => onClick_of rest
  end.

(** [await user.click(screen.getByRole('button'))] on the output of a
    render; [getByRole] throws unless there is exactly one button. *)
Definition click (out : option React.node) (event : nat) : M world unit :=
  match out with
  | None => throw (React.Error "Unable to find an accessible element with the role button")
  | Some n =>
      match buttons n with
      | [attrs] =>
          match onClick_of attrs with
          | Some handler => handler event
          | None => ret tt
          end
      | _ => throw (React.Error "Unable to find an accessible element with the role button")
      end
  end.

(** Response bodies that are neither [undefined], [null] nor an object. *)
Definition not_an_object (v : value) : bool :=
  match v with
  | VBool _ | VNum _ | VStr _ | VRef _ => true
  | VUndefined | VNull | VObj _ => false
  end.



End Usage.

(** ** Basic facts *)

Lemma get_prop_object {S} fields k (s : S) :
  get_prop (VObj fields) k s = (Normal (default VUndefined (fields !! k)), s).
Proof. reflexivity. Qed.

Lemma get_prop_present {S} v k (s : S) :
  present v = true -> get_prop v k s = (Normal (field v k), s).
Proof. destruct v; simpl; intros H; try discriminate; reflexivity. Qed.

Lemma bind_get_prop {S A} v k (f : value -> M S A) (s : S) :
  present v = true ->
  (let* x := get_prop v k in f x) s = f (field v k) s.
Proof. intros H. unfold bind. rewrite (get_prop_present v k s H). reflexivity. Qed.

Lemma truthy_present v : truthy v = true -> present v = true.
Proof. destruct v; simpl; intros H; try discriminate; reflexivity. Qed.

Lemma truthy_string s : truthy (VStr s) = true <-> s <> "".
Proof.
  simpl. rewrite negb_true_iff. split.
  - intros H ->. discriminate.
  - intros H. apply String.eqb_neq. exact H.
Qed.

(** ** [getAd] on a fulfilled request *)

Lemma getAd_fulfilled_truthy isAx this ip rp uid response w :
  truthy (Axios.data response) = true ->
  truthy (field (Axios.data response) "text") = true ->
  IrisClient.getAd isAx this ip rp uid (Axios.Fulfilled response) w =
    (Normal (advertisement (Axios.data response)), posted this ip rp uid w).
Proof.
  destruct response as [data status statusText]. simpl.
  intros Hd Ht.
  unfold IrisClient.getAd, try_catch, Axios.post, bind, emit, ret. simpl.
  destruct data; simpl in *; try discriminate.
  rewrite Ht. reflexivity.
Qed.

Lemma getAd_fulfilled_falsy isAx this ip rp uid response w :
  truthy (Axios.data response) && truthy (field (Axios.data response) "text") = false ->
  IrisClient.getAd isAx this ip rp uid (Axios.Fulfilled response) w =
    (Normal VNull, posted this ip rp uid w).
Proof.
  destruct response as [data status statusText]. simpl.
  intros H.
  unfold IrisClient.getAd, try_catch, Axios.post, bind, emit, ret. simpl.
  destruct (truthy data) eqn:Hd; simpl in H.
  - destruct data; try discriminate Hd; simpl in *; rewrite ?H; reflexivity.
  - simpl. rewrite Hd. reflexivity.
Qed.

Lemma posted_console_errors this ip rp uid w :
  console_errors (posted this ip rp uid w) = console_errors w.
Proof.
  unfold console_errors, posted. simpl.
  rewrite List.filter_app. simpl. apply app_nil_r.
Qed.

Lemma advertisement_fields data :
  exists ad : gmap string value,
    advertisement data = VObj ad
    /\ ad !! "text" = Some (field data "text")
    /\ ad !! "impUrl" = Some (field data "impUrl")
    /\ ad !! "clickUrl" = Some (field data "clickUrl")
    /\ ad !! "payout" = Some (field data "payout")
    /\ dom ad = {[ "text"; "impUrl"; "clickUrl"; "payout" ]}.
Proof.
  eexists. split; [reflexivity |]. simpl.
  repeat split; by simplify_map_eq.
Qed.

(** C1, as amended.  For every response whose body is truthy and whose
    [text] is truthy (for a string: not empty), [getAd] returns an object
    with exactly the four properties [text], [impUrl], [clickUrl] and
    [payout], each holding the value read from the same property of the
    body, unchanged: [null] stays [null], a missing property reads as
    [undefined], a payout of any sign or zero is kept, and no other
    property of the body is carried over.  Nothing is logged. *)
Theorem getAd_copies_response_fields isAx this ip rp uid response w :
  truthy (Axios.data response) = true ->
  truthy (field (Axios.data response) "text") = true ->
  exists ad : gmap string value,
    IrisClient.getAd isAx this ip rp uid (Axios.Fulfilled response) w
      = (Normal (VObj ad), posted this ip rp uid w)
    /\ ad !! "text" = Some (field (Axios.data response) "text")
    /\ ad !! "impUrl" = Some (field (Axios.data response) "impUrl")
    /\ ad !! "clickUrl" = Some (field (Axios.data response) "clickUrl")
    /\ ad !! "payout" = Some (field (Axios.data response) "payout")
    /\ dom ad = {[ "text"; "impUrl"; "clickUrl"; "payout" ]}
    /\ console_errors (posted this ip rp uid w) = console_errors w.
Proof.
  intros Hd Ht.
  destruct (advertisement_fields (Axios.data response)) as (ad & Had & H1 & H2 & H3 & H4 & H5).
  exists ad. rewrite <- Had.
  split; [apply getAd_fulfilled_truthy; assumption |].
  repeat split; try assumption. apply posted_console_errors.
Qed.

Lemma getAd_copies_response_fields_witness :
  truthy Samples.body_null_urls = true
  /\ truthy (field Samples.body_null_urls "text") = true
  /\ exists ad : gmap string value,
       fst (Samples.getAd (Samples.respond Samples.body_null_urls) Samples.world0)
         = Normal (VObj ad)
       /\ ad !! "impUrl" = Some VNull
       /\ ad !! "clickUrl" = Some VNull
       /\ ad !! "payout" = Some (VNum (-0.1))
       /\ ad !! "url" = None.
Proof.
  split; [reflexivity |]. split; [reflexivity |].
  destruct (getAd_copies_response_fields Axios.isAxiosError Samples.client
              "What is the weather like?" "The weather is sunny today." "user-123"
              {| Axios.data := Samples.body_null_urls;
                 Axios.status := 200; Axios.statusText := "OK" |}
              Samples.world0 eq_refl eq_refl)
    as (ad & Hrun & _ & Himp & Hclick & Hpay & Hdom & _).
  exists ad. split; [unfold Samples.getAd, Samples.respond; rewrite Hrun; reflexivity |].
  repeat split; try assumption.
  apply not_elem_of_dom. rewrite Hdom. set_unfold. intuition discriminate.
Defined.

(** C1, as stated, fails: a body whose [text] is present but is the empty
    string is answered with [null], not with a copy of its fields. *)
Lemma getAd_present_text_counterexample :
  ~ (forall response : Axios.AxiosResponse,
       present (Axios.data response) = true ->
       present (field (Axios.data response) "text") = true ->
       fst (IrisClient.getAd Axios.isAxiosError Samples.client "in" "out" "user-123"
              (Axios.Fulfilled response) Samples.world0)
         = Normal (advertisement (Axios.data response))).
Proof.
  intros H.
  specialize (H {| Axios.data := Samples.body_empty_text;
                   Axios.status := 200; Axios.statusText := "OK" |} eq_refl eq_refl).
  rewrite getAd_fulfilled_falsy in H by reflexivity.
  discriminate H.
Qed.

(** C5, as stated, fails: an empty [text] does not yield an advertisement. *)
Lemma getAd_empty_text_counterexample :
  ~ (forall fields : gmap string value,
       fields !! "text" = Some (VStr "") ->
       exists ad : gmap string value,
         fst (Samples.getAd (Samples.respond (VObj fields)) Samples.world0)
           = Normal (VObj ad)).
Proof.
  intros H.
  assert (Htext : (list_to_map [("text", VStr "")] : gmap string value) !! "text"
                  = Some (VStr "")) by reflexivity.
  destruct (H _ Htext) as [ad Had].
  unfold Samples.getAd, Samples.respond in Had.
  rewrite getAd_fulfilled_falsy in Had by reflexivity.
  discriminate Had.
Qed.

(** C5, as amended.  For every response whose body is an object whose
    [text] is the empty string, [getAd] treats the text as missing: it
    returns [null], having posted its request and logged nothing. *)
Theorem getAd_empty_text_is_no_ad isAx this ip rp uid response fields w :
  Axios.data response = VObj fields ->
  fields !! "text" = Some (VStr "") ->
  IrisClient.getAd isAx this ip rp uid (Axios.Fulfilled response) w
    = (Normal VNull, posted this ip rp uid w)
  /\ console_errors (posted this ip rp uid w) = console_errors w.
Proof.
  intros Hdata Htext. split; [| apply posted_console_errors].
  apply getAd_fulfilled_falsy. rewrite Hdata. simpl. rewrite Htext. reflexivity.
Qed.

Lemma getAd_empty_text_is_no_ad_witness :
  Samples.body_empty_text = VObj (list_to_map
    [("text", VStr "");
     ("impUrl", VStr "https://api.iristech.dev/impression?id=abc123");
     ("clickUrl", VStr "https://api.iristech.dev/click?id=abc123");
     ("payout", VNum 0.15)])
  /\ fst (Samples.getAd (Samples.respond Samples.body_empty_text) Samples.world0)
       = Normal VNull.
Proof.
  split; [reflexivity |].
  unfold Samples.getAd, Samples.respond.
  rewrite (proj1 (getAd_empty_text_is_no_ad Axios.isAxiosError Samples.client
                    "What is the weather like?" "The weather is sunny today." "user-123"
                    {| Axios.data := Samples.body_empty_text;
                       Axios.status := 200; Axios.statusText := "OK" |}
                    _ Samples.world0 eq_refl eq_refl)).
  reflexivity.
Defined.

(** C7.  For every response whose body is [undefined] or [null], or is an
    object without a [text] property, [getAd] returns [null] and the
    diagnostic log is left as it was: the only effect is the request. *)
Theorem getAd_no_ad_returns_null_silently isAx this ip rp uid response w :
  no_ad_body (Axios.data response) ->
  IrisClient.getAd isAx this ip rp uid (Axios.Fulfilled response) w
    = (Normal VNull, posted this ip rp uid w)
  /\ console_errors (posted this ip rp uid w) = console_errors w.
Proof.
  intros Hbody. split; [| apply posted_console_errors].
  apply getAd_fulfilled_falsy.
  destruct Hbody as [| | fields Hnone]; simpl; try reflexivity.
  rewrite Hnone. reflexivity.
Qed.

Lemma getAd_no_ad_returns_null_silently_witness :
  no_ad_body Samples.body_without_text
  /\ Samples.getAd (Samples.respond Samples.body_without_text) Samples.world0
       = (Normal VNull,
          World (heap Samples.world0)
            [HttpPost "/bids"
               (bidRequest Samples.client "What is the weather like?"
                  "The weather is sunny today." "user-123")]).
Proof.
  assert (Hbody : no_ad_body Samples.body_without_text)
    by (apply body_without_text; reflexivity).
  split; [exact Hbody |].
  exact (proj1 (getAd_no_ad_returns_null_silently Axios.isAxiosError Samples.client
                  "What is the weather like?" "The weather is sunny today." "user-123"
                  {| Axios.data := Samples.body_without_text;
                     Axios.status := 200; Axios.statusText := "OK" |}
                  Samples.world0 Hbody)).
Defined.

(** ** [getAd] on a rejected request *)


Lemma handleError_getAd isAx reason w :
  (isAx reason = true -> present reason = true) ->
  exists entry : list value,
    diagnostic isAx reason entry
    /\ IrisClient.handleError isAx reason "getAd" w
         = (Normal tt, World (heap w) (trace w ++ [ConsoleError entry])).
Proof.
  intros Hsane. unfold IrisClient.handleError.
  destruct (isAx reason) eqn:Hax.
  - specialize (Hsane eq_refl).
    destruct (truthy (field reason "response")) eqn:Hresp;
      [| destruct (truthy (field reason "request")) eqn:Hreq];
      eexists;
      (split; [first [ eapply ServerError; eassumption
                     | eapply NoResponse; eassumption
                     | eapply RequestError; eassumption ] |]);
      unfold bind, Host.console_error, emit;
      repeat (rewrite get_prop_present
                by first [assumption | apply truthy_present; assumption];
              rewrite ?Hresp, ?Hreq; cbv iota beta);
      reflexivity.
  - eexists. split; [apply UnexpectedError; assumption | reflexivity].
Qed.

(** C2.  For every rejection of the POST, [getAd] completes normally with
    [null] (it does not throw) and appends exactly one entry to the
    diagnostic log, whose arguments are those of the matching case of the
    failure taxonomy: status, status text and body of the response when
    the failure carries one; the fixed message and the failure code when
    it carries a request but no response; the failure message when it
    carries neither; the failure value itself when it is not an axios
    error.  [isAxiosError] is any recogniser that, like axios' own,
    accepts neither [undefined] nor [null]. *)
Theorem getAd_rejected_logs_once isAx this ip rp uid reason w :
  (isAx reason = true -> present reason = true) ->
  exists entry : list value,
    diagnostic isAx reason entry
    /\ IrisClient.getAd isAx this ip rp uid (Axios.Rejected reason) w
         = (Normal VNull,
            World (heap w)
              (trace (posted this ip rp uid w) ++ [ConsoleError entry]))
    /\ console_errors
         (snd (IrisClient.getAd isAx this ip rp uid (Axios.Rejected reason) w))
         = (console_errors w ++ [ConsoleError entry])%list.
Proof.
  intros Hsane.
  destruct (handleError_getAd isAx reason (posted this ip rp uid w) Hsane)
    as (entry & Hshape & Hrun).
  assert (Hget : IrisClient.getAd isAx this ip rp uid (Axios.Rejected reason) w
                 = (Normal VNull,
                    World (heap w)
                      (trace (posted this ip rp uid w) ++ [ConsoleError entry]))).
  { unfold IrisClient.getAd, try_catch, Axios.post, bind, emit, throw. simpl.
    unfold posted, bidRequest in Hrun. simpl in Hrun. rewrite Hrun. reflexivity. }
  exists entry. split; [exact Hshape |]. split; [exact Hget |].
  rewrite Hget. unfold console_errors. simpl.
  rewrite !List.filter_app. simpl. rewrite app_nil_r. reflexivity.
Qed.

Lemma getAd_rejected_logs_once_witness :
  (Axios.isAxiosError Samples.timeoutError = true -> present Samples.timeoutError = true)
  /\ exists entry : list value,
       diagnostic Axios.isAxiosError Samples.timeoutError entry
       /\ entry = [VStr "[IrisClient.getAd] Network Error:";
                   obj [("message", VStr "No response received from server");
                        ("code", VStr "ECONNABORTED")]]
       /\ fst (Samples.getAd (Axios.Rejected Samples.timeoutError) Samples.world0)
            = Normal VNull.
Proof.
  split; [intros _; reflexivity |].
  destruct (getAd_rejected_logs_once Axios.isAxiosError Samples.client
              "What is the weather like?" "The weather is sunny today." "user-123"
              Samples.timeoutError Samples.world0 (fun _ => eq_refl))
    as (entry & Hshape & Hrun & _).
  exists entry. split; [exact Hshape |]. split.
  - inversion Hshape as [? Hresp | ? ? ? | ? ? Hreq | Hax];
      [discriminate Hresp | reflexivity | discriminate Hreq | discriminate Hax].
  - unfold Samples.getAd. rewrite Hrun. reflexivity.
Defined.

(** The 404 of the test suite is logged as a server error. *)
Example getAd_http_404 :
  Samples.getAd (Axios.Rejected Samples.httpError) Samples.world0
  = (Normal VNull,
     World (heap Samples.world0)
       [HttpPost "/bids"
          (bidRequest Samples.client "What is the weather like?"
             "The weather is sunny today." "user-123");
        ConsoleError
          [VStr "[IrisClient.getAd] API Error:";
           obj [("status", VNum 404);
                ("statusText", VStr "Not Found");
                ("data", obj [("error", VStr "Endpoint not found")])]]]).
Proof. reflexivity. Qed.

(** ** The excluded-topics list *)

Lemma spread_fresh l xs w :
  heap w !! l = Some xs ->
  exists r : nat,
    Host.spread l w = (Normal r, World (<[r := xs]> (heap w)) (trace w))
    /\ heap w !! r = None.
Proof.
  intros Hl. exists (fresh (dom (heap w))). unfold Host.spread. rewrite Hl.
  split; [reflexivity |].
  apply not_elem_of_dom. apply is_fresh.
Qed.

(** C9.  After [updateExcludedTopics(T)], [getExcludedTopics()] returns an
    array with the elements of [T].  It is a new array, different from [T]
    and from every array that existed before the call, so whatever the
    caller then writes into it, the array the client holds keeps its
    elements and the next [getExcludedTopics()] returns them again. *)
Theorem getExcludedTopics_after_update this T (xs : list string) w :
  heap w !! T = Some xs ->
  exists (r : nat) (w1 : world),
    IrisClient.getExcludedTopics (IrisClient.updateExcludedTopics this T) w
      = (Normal r, w1)
    /\ heap w1 !! r = Some xs
    /\ heap w !! r = None
    /\ r <> IrisClient.excludedTopics (IrisClient.updateExcludedTopics this T)
    /\ forall xs' : list string,
         exists (w2 : world) (r' : nat) (w3 : world),
           Host.array_overwrite r xs' w1 = (Normal tt, w2)
           /\ heap w2 !! T = Some xs
           /\ IrisClient.getExcludedTopics (IrisClient.updateExcludedTopics this T) w2
                = (Normal r', w3)
           /\ heap w3 !! r' = Some xs.
Proof.
  intros HT. unfold IrisClient.getExcludedTopics. simpl.
  destruct (spread_fresh T xs w HT) as (r & Hrun & Hfresh).
  assert (Hne : r <> T) by (intros ->; rewrite HT in Hfresh; discriminate).
  exists r, (World (<[r := xs]> (heap w)) (trace w)).
  split; [exact Hrun |]. simpl.
  split; [apply lookup_insert_eq |].
  split; [exact Hfresh |]. split; [exact Hne |].
  intros xs'.
  set (w2 := World (<[r := xs']> (<[r := xs]> (heap w))) (trace w)).
  assert (HT2 : heap w2 !! T = Some xs).
  { unfold w2. simpl. rewrite !lookup_insert_ne by exact Hne. exact HT. }
  destruct (spread_fresh T xs w2 HT2) as (r' & Hrun' & _).
  exists w2, r', (World (<[r' := xs]> (heap w2)) (trace w2)).
  split.
  { unfold Host.array_overwrite. simpl. rewrite lookup_insert_eq. reflexivity. }
  split; [exact HT2 |]. split; [exact Hrun' |].
  simpl. apply lookup_insert_eq.
Qed.

Lemma getExcludedTopics_after_update_witness :
  heap Samples.world0 !! 0 = Some Samples.topics
  /\ exists (r : nat) (w1 : world),
       IrisClient.getExcludedTopics
         (IrisClient.updateExcludedTopics Samples.client 0) Samples.world0
         = (Normal r, w1)
       /\ heap w1 !! r = Some Samples.topics
       /\ r <> 0.
Proof.
  assert (H0 : heap Samples.world0 !! 0 = Some Samples.topics) by reflexivity.
  split; [exact H0 |].
  destruct (getExcludedTopics_after_update Samples.client 0 Samples.topics
              Samples.world0 H0) as (r & w1 & Hrun & Hr & _ & Hne & _).
  exists r, w1. repeat split; assumption.
Defined.

(** Whatever the failure, [handleError] leaves the store alone and only
    extends the trace. *)
Lemma handleError_frame isAx error method w :
  exists later : list effect,
    snd (IrisClient.handleError isAx error method w)
    = World (heap w) (trace w ++ later).
Proof.
  assert (Hnil : w = World (heap w) (trace w ++ [])).
  { rewrite app_nil_r. destruct w; reflexivity. }
  unfold IrisClient.handleError, bind, Host.console_error, emit.
  destruct (isAx error); [| eexists; reflexivity].
  destruct error as [| | b | f | s | fields | l]; simpl;
    try (exists []; exact Hnil); try (eexists; reflexivity).
  destruct (truthy (default VUndefined (fields !! "response"))) eqn:Hresp.
  - destruct (default VUndefined (fields !! "response"));
      try discriminate Hresp; simpl; eexists; reflexivity.
  - destruct (truthy (default VUndefined (fields !! "request")));
      simpl; eexists; reflexivity.
Qed.

(** [getAd] always posts its request first, and never touches the store. *)
Lemma getAd_frame isAx this ip rp uid reply w :
  exists later : list effect,
    snd (IrisClient.getAd isAx this ip rp uid reply w)
    = World (heap w) (trace (posted this ip rp uid w) ++ later).
Proof.
  destruct reply as [response | reason].
  - exists [].
    destruct (truthy (Axios.data response)
              && truthy (field (Axios.data response) "text")) eqn:H.
    + apply andb_true_iff in H as [Hd Ht].
      rewrite getAd_fulfilled_truthy by assumption.
      simpl. rewrite app_nil_r. reflexivity.
    + rewrite getAd_fulfilled_falsy by assumption.
      simpl. rewrite app_nil_r. reflexivity.
  - destruct (handleError_frame isAx reason "getAd" (posted this ip rp uid w))
      as [later Hlater].
    exists later.
    unfold IrisClient.getAd, try_catch, Axios.post, bind, emit, throw, ret. simpl.
    unfold posted, bidRequest in Hlater. simpl in Hlater.
    destruct (IrisClient.handleError isAx reason "getAd" _) as [[[] | e] w'];
      simpl in *; exact Hlater.
Qed.

(** C8, as stated, fails: the client built on the caller's array sends,
    after the caller has pushed a topic onto that array, the longer list
    and not the one it was constructed with. *)
Lemma constructor_private_copy_counterexample :
  ~ (forall (pushed : string) (w1 w2 : world) (result : completion value),
       Host.array_push 0 pushed Samples.world0 = (Normal tt, w1) ->
       Samples.getAd (Samples.respond Samples.body_null_urls) w1 = (result, w2) ->
       exists body : value,
         HttpPost "/bids" body ∈ trace w2
         /\ Host.deref w2 (field body "excludedTopics") = Some Samples.topics).
Proof.
  intros H.
  set (w1 := World (<[0 := (Samples.topics ++ ["sports"])%list]>
                      (heap Samples.world0)) []).
  assert (Hpush : Host.array_push 0 "sports" Samples.world0 = (Normal tt, w1))
    by reflexivity.
  assert (Hrun : Samples.getAd (Samples.respond Samples.body_null_urls) w1
                 = (Normal (advertisement Samples.body_null_urls),
                    posted Samples.client "What is the weather like?"
                      "The weather is sunny today." "user-123" w1))
    by (apply getAd_fulfilled_truthy; reflexivity).
  destruct (H "sports" _ _ _ Hpush Hrun) as (body & Hin & Hsent).
  simpl in Hin. apply list_elem_of_singleton in Hin. injection Hin as Hbody. subst body.
  assert (Hfield : field (bidRequest Samples.client "What is the weather like?"
                           "The weather is sunny today." "user-123")
                     "excludedTopics" = VRef 0) by reflexivity.
  rewrite Hfield in Hsent. unfold Host.deref, posted, w1 in Hsent. simpl in Hsent.
  rewrite lookup_insert_eq in Hsent. discriminate Hsent.
Qed.

(** C8, as amended.  The client keeps the very array it is given, by the
    constructor or by [updateExcludedTopics], and the body of every request
    of [getAd] holds a reference to that same array.  So after the caller
    has changed the array in place, the topics that [getAd] sends are the
    changed ones.  (Only [getExcludedTopics] makes a copy.) *)
Theorem client_shares_the_callers_array isAx key other l (xs xs' : list string)
    ip rp uid reply w :
  heap w !! l = Some xs ->
  IrisClient.excludedTopics (IrisClient.constructor key l) = l
  /\ IrisClient.excludedTopics (IrisClient.updateExcludedTopics other l) = l
  /\ forall this : IrisClient.t,
       IrisClient.excludedTopics this = l ->
       exists (w1 : world) (later : list effect),
         Host.array_overwrite l xs' w = (Normal tt, w1)
         /\ field (bidRequest this ip rp uid) "excludedTopics" = VRef l
         /\ trace (snd (IrisClient.getAd isAx this ip rp uid reply w1))
            = (trace w ++ HttpPost "/bids" (bidRequest this ip rp uid) :: later)%list
         /\ Host.deref (snd (IrisClient.getAd isAx this ip rp uid reply w1)) (VRef l)
            = Some xs'.
Proof.
  intros Hl. split; [reflexivity |]. split; [reflexivity |].
  intros this Hthis.
  set (w1 := World (<[l := xs']> (heap w)) (trace w)).
  destruct (getAd_frame isAx this ip rp uid reply w1) as [later Hframe].
  exists w1, later.
  split; [unfold Host.array_overwrite; rewrite Hl; reflexivity |].
  split; [unfold bidRequest; rewrite Hthis; reflexivity |].
  rewrite Hframe. simpl. split.
  - rewrite <- app_assoc. reflexivity.
  - apply lookup_insert_eq.
Qed.

Lemma client_shares_the_callers_array_witness :
  heap Samples.world0 !! 0 = Some Samples.topics
  /\ IrisClient.excludedTopics Samples.client = 0
  /\ exists (w1 : world) (later : list effect),
       Host.array_overwrite 0 ["politics"; "adult"; "sports"] Samples.world0
         = (Normal tt, w1)
       /\ Host.deref
            (snd (Samples.getAd (Samples.respond Samples.body_null_urls) w1))
            (VRef 0)
          = Some ["politics"; "adult"; "sports"].
Proof.
  assert (H0 : heap Samples.world0 !! 0 = Some Samples.topics) by reflexivity.
  split; [exact H0 |]. split; [reflexivity |].
  destruct (client_shares_the_callers_array Axios.isAxiosError
              "test-api-key-12345" Samples.client 0 Samples.topics
              ["politics"; "adult"; "sports"]
              "What is the weather like?" "The weather is sunny today." "user-123"
              (Samples.respond Samples.body_null_urls) Samples.world0 H0)
    as (_ & _ & Hshare).
  destruct (Hshare Samples.client eq_refl) as (w1 & later & Hw1 & _ & _ & Hsent).
  exists w1, later. split; [exact Hw1 | exact Hsent].
Defined.

(** ** [IrisAd]: rendering *)

Local Arguments get_prop : simpl never.
Local Arguments IrisAd.fireImpression : simpl never.

Lemma world_eta w : World (heap w) (trace w ++ []) = w.
Proof. rewrite app_nil_r. destruct w; reflexivity. Qed.

Lemma fireImpression_run ad w :
  present ad = true ->
  IrisAd.fireImpression ad w
  = (Normal tt, World (heap w) (trace w ++ impression_of ad)).
Proof.
  intros Had. unfold IrisAd.fireImpression, impression_of, bind, try_catch.
  rewrite (get_prop_present ad) by exact Had.
  destruct (truthy (field ad "impUrl")); simpl.
  - rewrite (get_prop_present ad) by exact Had. reflexivity.
  - unfold ret. rewrite world_eta. reflexivity.
Qed.

Lemma active_spec props :
  negb (truthy (default_param (IrisAd.show props) (VBool true)))
  || negb (truthy (IrisAd.ad props)) = negb (active props).
Proof. unfold active. rewrite negb_andb. reflexivity. Qed.

Lemma active_present props : active props = true -> present (IrisAd.ad props) = true.
Proof.
  unfold active. intros H. apply andb_true_iff in H as [_ H].
  apply truthy_present. exact H.
Qed.

(** A render that is not active calls no hook: nothing is output, nothing
    happens, and the committed hook state is empty again. *)
Lemma render_inactive props current w :
  active props = false ->
  React.render IrisAd.IrisAd current props w = (Normal ([], None), w).
Proof.
  intros Hact. unfold React.render, React.renderWithHooks, IrisAd.IrisAd.
  rewrite active_spec, Hact. simpl.
  rewrite andb_false_r. reflexivity.
Qed.

(** An active render on empty hook state mounts the effect and runs it. *)
Lemma render_mount props w :
  active props = true ->
  React.render IrisAd.IrisAd [] props w
  = (Normal ([ {| React.create := IrisAd.fireImpression (IrisAd.ad props) |} ],
             Some (rendered props)),
     World (heap w) (trace w ++ impression_of (IrisAd.ad props))).
Proof.
  intros Hact. pose proof (active_present props Hact) as Had.
  unfold React.render, React.renderWithHooks, IrisAd.IrisAd.
  rewrite active_spec, Hact. simpl.
  unfold bind at 1. simpl.
  rewrite bind_get_prop by exact Had. simpl.
  unfold bind. rewrite fireImpression_run by exact Had. reflexivity.
Qed.

(** An active render on the hook state of one effect schedules nothing. *)
Lemma render_update props hook w :
  active props = true ->
  React.render IrisAd.IrisAd [hook] props w
  = (Normal ([ {| React.create := IrisAd.fireImpression (IrisAd.ad props) |} ],
             Some (rendered props)),
     w).
Proof.
  intros Hact. pose proof (active_present props Hact) as Had.
  unfold React.render, React.renderWithHooks, IrisAd.IrisAd.
  rewrite active_spec, Hact. simpl.
  unfold bind at 1. simpl.
  rewrite bind_get_prop by exact Had. reflexivity.
Qed.

Lemma render_IrisAd props current w :
  length current <= 1 ->
  React.render IrisAd.IrisAd current props w
  = (Normal (if active props
             then ([ {| React.create := IrisAd.fireImpression (IrisAd.ad props) |} ],
                   Some (rendered props))
             else ([], None)),
     World (heap w)
       (trace w ++ impressions (match current with [] => false | _ => true end)
                     [props])).
Proof.
  intros Hlen. simpl. destruct (active props) eqn:Hact.
  - destruct current as [| hook [| hook' rest]]; simpl in Hlen; [| | lia].
    + rewrite render_mount by exact Hact. rewrite app_nil_r. reflexivity.
    + rewrite render_update by exact Hact. rewrite world_eta. reflexivity.
  - rewrite render_inactive by exact Hact. rewrite world_eta. reflexivity.
Qed.

(** The hook state of an instance never holds more than the one effect,
    and the requests made over any sequence of renders are one for each
    render that is active while the render before it was not. *)
Lemma renders_IrisAd history : forall current w,
  length current <= 1 ->
  exists hooks : list React.Hook,
    length hooks <= 1
    /\ React.renders IrisAd.IrisAd current history w
       = (Normal hooks,
          World (heap w)
            (trace w ++ impressions (match current with [] => false | _ => true end)
                          history)).
Proof.
  induction history as [| props later IH]; intros current w Hlen.
  - exists current. split; [exact Hlen |]. simpl. unfold ret.
    rewrite world_eta. reflexivity.
  - cbn [React.renders]. unfold bind. rewrite render_IrisAd by exact Hlen.
    cbn [impressions]. destruct (active props) eqn:Hact; cbn [fst].
    + edestruct (IH [ {| React.create := IrisAd.fireImpression (IrisAd.ad props) |} ])
        as (hooks & Hhooks & Hrun); [simpl; lia |].
      exists hooks. split; [exact Hhooks |]. rewrite Hrun. simpl.
      rewrite app_nil_r, <- app_assoc. reflexivity.
    + edestruct (IH []) as (hooks & Hhooks & Hrun); [simpl; lia |].
      exists hooks. split; [exact Hhooks |]. rewrite Hrun. simpl.
      rewrite app_nil_r. reflexivity.
Qed.

(** C10.  Whether [IrisAd] renders is decided by the truthiness of [show]
    (true when not given) and of the advertisement alone: the output is
    the full structure when both are truthy and nothing otherwise.  In
    particular, for every advertisement object and truthy [show] the
    output is the container with its text region and its button, each
    carrying its [data-iris-ad] marker, whatever the object holds: the
    text region shows whatever [text] reads as, be it the empty string,
    and no URL property is looked at.  [current] is the hook state the
    instance is rendered on; for an [IrisAd] instance it holds at most the
    one effect hook ([renders_IrisAd]). *)
Theorem IrisAd_renders_by_truthiness props current w :
  length current <= 1 ->
  exists (hooks : list React.Hook) (out : option React.node) (w' : world),
    React.render IrisAd.IrisAd current props w = (Normal (hooks, out), w')
    /\ out = (if active props then Some (rendered props) else None)
    /\ forall fields : gmap string value,
         IrisAd.ad props = VObj fields ->
         truthy (default_param (IrisAd.show props) (VBool true)) = true ->
         out = Some
           (structure (IrisAd.className props) (IrisAd.textClassName props)
              (IrisAd.buttonClassName props)
              (default VUndefined (fields !! "text"))
              (default_param (IrisAd.buttonText props) (VStr "Learn More"))
              (IrisAd.handleButtonClick (VObj fields) (IrisAd.onButtonClick props))).
Proof.
  intros Hlen. rewrite render_IrisAd by exact Hlen.
  destruct (active props) eqn:Hact.
  - do 3 eexists. split; [reflexivity |]. split; [reflexivity |].
    intros fields Had _. unfold rendered. rewrite Had. reflexivity.
  - do 3 eexists. split; [reflexivity |]. split; [reflexivity |].
    intros fields Had Hshow. unfold active in Hact.
    rewrite Hshow, Had in Hact. discriminate Hact.
Qed.

Lemma IrisAd_renders_by_truthiness_witness :
  length (@nil React.Hook) <= 1
  /\ exists (hooks : list React.Hook) (w' : world),
       React.render IrisAd.IrisAd []
         (Samples.props Samples.adWithEmptyText VUndefined) Samples.world0
       = (Normal (hooks,
                  Some (structure VUndefined VUndefined VUndefined
                          (VStr "") (VStr "Learn More")
                          (IrisAd.handleButtonClick Samples.adWithEmptyText None))),
          w').
Proof.
  split; [simpl; lia |].
  destruct (IrisAd_renders_by_truthiness
              (Samples.props Samples.adWithEmptyText VUndefined) []
              Samples.world0 (le_S 0 0 (le_n 0)))
    as (hooks & out & w' & Hrun & _ & Hobj).
  exists hooks, w'. rewrite Hrun.
  rewrite (Hobj _ eq_refl eq_refl). reflexivity.
Defined.

(** ** [IrisAd]: the impression request *)

(** X10.  Re-rendering an instance that stays active makes no further
    request, whatever advertisement the later renders are given: the only
    request is the one for the advertisement it was first rendered with
    (none if that one has no truthy [impUrl]). *)
Lemma IrisAd_rerender_active_once props laters w :
  active props = true ->
  Forall (fun later => active later = true) laters ->
  trace (snd (React.renders IrisAd.IrisAd [] (props :: laters) w))
  = (trace w ++ impression_of (IrisAd.ad props))%list.
Proof.
  intros Hact Hall.
  assert (Hnone : impressions true laters = []).
  { induction Hall as [| later rest Hlater _ IH]; [reflexivity |].
    cbn [impressions]. rewrite Hlater, IH. reflexivity. }
  destruct (renders_IrisAd (props :: laters) [] w) as (hooks & _ & Hrun);
    [simpl; lia |].
  rewrite Hrun. cbn [snd trace impressions]. rewrite Hact.
  rewrite Hnone, app_nil_r. reflexivity.
Qed.

(** No request is made by a render that is not active. *)
Lemma IrisAd_inactive_render_silent props current w :
  active props = false ->
  snd (React.render IrisAd.IrisAd current props w) = w.
Proof. intros Hact. rewrite render_inactive by exact Hact. reflexivity. Qed.

(** C3 does not hold of the code.  One mounted instance rendered with the
    test advertisement, then with [show] false, then with [show] true
    again, requests the impression URL twice: the render that returns
    before [useEffect] leaves the instance without hook state, so the next
    active render mounts the effect anew. *)
Theorem IrisAd_impression_repeats_after_hiding :
  trace (snd (React.renders IrisAd.IrisAd []
                [Samples.props Samples.mockAd VUndefined;
                 Samples.props Samples.mockAd (VBool false);
                 Samples.props Samples.mockAd (VBool true)]
                Samples.world0))
  = [Fetch (VStr "https://api.example.com/impression?id=123")
       (obj [("method", VStr "GET"); ("mode", VStr "no-cors")]);
     Fetch (VStr "https://api.example.com/impression?id=123")
       (obj [("method", VStr "GET"); ("mode", VStr "no-cors")])].
Proof.
  destruct (renders_IrisAd
              [Samples.props Samples.mockAd VUndefined;
               Samples.props Samples.mockAd (VBool false);
               Samples.props Samples.mockAd (VBool true)] [] Samples.world0)
    as (hooks & _ & Hrun); [simpl; lia |].
  rewrite Hrun. reflexivity.
Qed.

(** ** [IrisAd]: clicks *)

Lemma handleButtonClick_run ad onButtonClick event w :
  present ad = true ->
  IrisAd.handleButtonClick ad onButtonClick event w
  = (Normal tt,
     World (heap w)
       (trace w ++
        match onButtonClick with
        | Some callback => [Invoke callback (nullish (field ad "clickUrl") (VStr "")) event]
        | None =>
            if truthy (field ad "clickUrl")
            then [WindowOpen (field ad "clickUrl") "_blank" "noopener,noreferrer"]
            else []
        end)).
Proof.
  intros Had. unfold IrisAd.handleButtonClick.
  rewrite bind_get_prop by exact Had.
  destruct onButtonClick as [callback |]; [reflexivity |].
  destruct (truthy (field ad "clickUrl")); [reflexivity |].
  unfold ret. rewrite world_eta. reflexivity.
Qed.

(** C4.  A click on the button of an advertisement object is handled in
    this order.  (1) With a custom handler, the handler is called with the
    [clickUrl] of the advertisement, or with the empty string when
    [clickUrl] is missing or [null], and with the event; that call is the
    only effect, so nothing is opened.  (2) Without one, a truthy
    [clickUrl] is opened with target [_blank] and features
    [noopener,noreferrer].  (3) Without one and with a [clickUrl] that is
    not truthy (the empty string, [null], or missing) nothing happens. *)
Theorem handleButtonClick_order (fields : gmap string value) event w :
  let ad := VObj fields in
  let clickUrl := default VUndefined (fields !! "clickUrl") in
  (forall callback : nat,
     IrisAd.handleButtonClick ad (Some callback) event w
     = (Normal tt,
        World (heap w)
          (trace w ++ [Invoke callback
                         (match clickUrl with
                          | VUndefined | VNull => VStr ""
                          | _ => clickUrl
                          end) event])))
  /\ IrisAd.handleButtonClick ad None event w
     = (Normal tt,
        match clickUrl with
        | VUndefined | VNull | VStr "" => w
        | _ =>
            if truthy clickUrl
            then World (heap w)
                   (trace w ++ [WindowOpen clickUrl "_blank" "noopener,noreferrer"])
            else w
        end).
Proof.
  intros ad clickUrl. split.
  - intros callback. unfold ad. rewrite handleButtonClick_run by reflexivity.
    reflexivity.
  - unfold ad. rewrite handleButtonClick_run by reflexivity.
    change (field (VObj fields) "clickUrl") with clickUrl.
    destruct clickUrl as [| | b | f | s | m | l]; cbn [truthy];
      try (rewrite world_eta; reflexivity); try reflexivity.
    + destruct b; [reflexivity | rewrite world_eta; reflexivity].
    + destruct (negb _); [reflexivity | rewrite world_eta; reflexivity].
    + destruct s as [| c s]; [rewrite world_eta; reflexivity | reflexivity].
Qed.

(** C6 does not hold of the code.  With the empty string as [clickUrl] and
    no custom handler, a click opens nothing. *)
Theorem handleButtonClick_empty_clickUrl_opens_nothing :
  IrisAd.handleButtonClick Samples.adWithEmptyClickUrl None 1 Samples.world0
  = (Normal tt, Samples.world0).
Proof. reflexivity. Qed.

(** ** Further properties of [IrisClient] *)

Local Arguments get_prop : simpl nomatch.

(** The two ways [handleError] can end: it throws a TypeError, before any
    output, when the recogniser accepts [undefined] or [null]; otherwise it
    logs one entry and returns. *)
Lemma handleError_cases isAx error method w :
  (isAx error = true /\ present error = false
   /\ IrisClient.handleError isAx error method w
      = (Throw (TypeError "Cannot read properties of undefined or null (reading 'response')"),
         w))
  \/ ((isAx error = true -> present error = true)
      /\ exists entry : list value,
           IrisClient.handleError isAx error method w
           = (Normal tt, World (heap w) (trace w ++ [ConsoleError entry]))).
Proof.
  unfold IrisClient.handleError.
  destruct (isAx error) eqn:Hax;
    [| right; split; [discriminate | eexists; reflexivity]].
  destruct (present error) eqn:Hp.
  - right. split; [reflexivity |].
    unfold Host.console_error, emit.
    rewrite bind_get_prop by exact Hp.
    destruct (truthy (field error "response")) eqn:Hresp.
    + repeat (rewrite bind_get_prop
                by first [exact Hp | apply truthy_present; exact Hresp]).
      eexists; reflexivity.
    + rewrite bind_get_prop by exact Hp.
      destruct (truthy (field error "request"));
        rewrite bind_get_prop by exact Hp; eexists; reflexivity.
  - left. split; [reflexivity |]. split; [reflexivity |].
    destruct error; try discriminate Hp; reflexivity.
Qed.

Lemma getAd_rejected_unfold isAx this ip rp uid reason w :
  IrisClient.getAd isAx this ip rp uid (Axios.Rejected reason) w
  = match IrisClient.handleError isAx reason "getAd" (posted this ip rp uid w) with
    | (Normal _, w') => (Normal VNull, w')
    | (Throw e, w') => (Throw e, w')
    end.
Proof. reflexivity. Qed.

Lemma getAd_fulfilled_cases isAx this ip rp uid response w :
  exists result : value,
    IrisClient.getAd isAx this ip rp uid (Axios.Fulfilled response) w
    = (Normal result, posted this ip rp uid w)
    /\ result = (if truthy (Axios.data response)
                    && truthy (field (Axios.data response) "text")
                 then advertisement (Axios.data response) else VNull).
Proof.
  destruct (truthy (Axios.data response)
            && truthy (field (Axios.data response) "text")) eqn:H.
  - apply andb_true_iff in H as [Hd Ht].
    eexists. split; [apply getAd_fulfilled_truthy; assumption | reflexivity].
  - eexists. split; [apply getAd_fulfilled_falsy; assumption | reflexivity].
Qed.

(** X1.  Whatever the reply and whatever the recogniser, one call of
    [getAd] issues exactly one POST to [/bids], first, followed by at most
    one [console.error] and nothing else; a fulfilled request logs
    nothing; the store of arrays is left as it was. *)
Theorem getAd_posts_exactly_once isAx this ip rp uid reply w :
  exists log : list effect,
    snd (IrisClient.getAd isAx this ip rp uid reply w)
    = World (heap w)
        (trace w ++ HttpPost "/bids" (bidRequest this ip rp uid) :: log)
    /\ (log = [] \/ exists entry : list value, log = [ConsoleError entry])
    /\ (forall response, reply = Axios.Fulfilled response -> log = []).
Proof.
  destruct reply as [response | reason].
  - destruct (getAd_fulfilled_cases isAx this ip rp uid response w)
      as (result & Hrun & _).
    exists []. rewrite Hrun. split; [reflexivity |]. split; [left |]; reflexivity.
  - rewrite getAd_rejected_unfold.
    destruct (handleError_cases isAx reason "getAd" (posted this ip rp uid w))
      as [(_ & _ & Hrun) | (_ & entry & Hrun)]; rewrite Hrun.
    + exists []. split; [reflexivity |]. split; [left; reflexivity | discriminate].
    + exists [ConsoleError entry]. split.
      * simpl. rewrite <- app_assoc. reflexivity.
      * split; [right; eexists; reflexivity | discriminate].
Qed.

(** X2.  A body that is present but is not an object (a string such as an
    HTML error page, a number, a boolean, an array) carries no [text]:
    [getAd] returns [null] and logs nothing. *)
Theorem getAd_non_object_body isAx this ip rp uid response w :
  Usage.not_an_object (Axios.data response) = true ->
  IrisClient.getAd isAx this ip rp uid (Axios.Fulfilled response) w
  = (Normal VNull, posted this ip rp uid w).
Proof.
  intros Hbody. apply getAd_fulfilled_falsy.
  destruct (Axios.data response); try discriminate Hbody;
    simpl; first [reflexivity | apply andb_false_r].
Qed.

Lemma getAd_non_object_body_witness :
  Usage.not_an_object (VStr "<html>Bad Gateway</html>") = true
  /\ Samples.getAd (Samples.respond (VStr "<html>Bad Gateway</html>")) Samples.world0
     = (Normal VNull,
        posted Samples.client "What is the weather like?"
          "The weather is sunny today." "user-123" Samples.world0).
Proof.
  split; [reflexivity |].
  exact (getAd_non_object_body Axios.isAxiosError Samples.client
           "What is the weather like?" "The weather is sunny today." "user-123"
           {| Axios.data := VStr "<html>Bad Gateway</html>";
              Axios.status := 200; Axios.statusText := "OK" |}
           Samples.world0 eq_refl).
Defined.


(** X4.  The result of [getAd] is a function of the reply alone: it does
    not depend on the client, on the arguments, or on anything an earlier
    call has left behind (nothing is cached). *)
Theorem getAd_result_depends_on_reply_only isAx reply
    this ip rp uid w this' ip' rp' uid' w' :
  fst (IrisClient.getAd isAx this ip rp uid reply w)
  = fst (IrisClient.getAd isAx this' ip' rp' uid' reply w').
Proof.
  destruct reply as [response | reason].
  - destruct (getAd_fulfilled_cases isAx this ip rp uid response w)
      as (r1 & H1 & E1).
    destruct (getAd_fulfilled_cases isAx this' ip' rp' uid' response w')
      as (r2 & H2 & E2).
    rewrite H1, H2, E1, E2. reflexivity.
  - rewrite !getAd_rejected_unfold.
    destruct (handleError_cases isAx reason "getAd" (posted this ip rp uid w))
      as [(Hax & Hp & H1) | (Hsane & e1 & H1)];
      destruct (handleError_cases isAx reason "getAd" (posted this' ip' rp' uid' w'))
        as [(Hax' & Hp' & H2) | (Hsane' & e2 & H2)];
      rewrite H1, H2; try reflexivity.
    + rewrite (Hsane' Hax) in Hp. discriminate Hp.
    + rewrite (Hsane Hax') in Hp'. discriminate Hp'.
Qed.

(** ** Further properties of the excluded-topics list *)

Lemma spread_with_fresh l xs extra w :
  heap w !! l = Some xs ->
  exists r : nat,
    Usage.spread_with l extra w
    = (Normal r, World (<[r := (xs ++ extra)%list]> (heap w)) (trace w))
    /\ heap w !! r = None.
Proof.
  intros Hl. exists (fresh (dom (heap w))). unfold Usage.spread_with. rewrite Hl.
  split; [reflexivity |].
  apply not_elem_of_dom. apply is_fresh.
Qed.

(** X5.  Two calls of [getExcludedTopics] return two different arrays with
    the same elements; every array that existed before keeps its elements
    and is different from both; nothing is logged or sent. *)
Theorem getExcludedTopics_twice this (xs : list string) w :
  heap w !! IrisClient.excludedTopics this = Some xs ->
  exists (r1 r2 : nat) (w2 : world),
    (let* a := IrisClient.getExcludedTopics this in
     let* b := IrisClient.getExcludedTopics this in
     ret (a, b)) w = (Normal (r1, r2), w2)
    /\ r1 <> r2
    /\ heap w2 !! r1 = Some xs
    /\ heap w2 !! r2 = Some xs
    /\ trace w2 = trace w
    /\ forall (l : nat) (ys : list string),
         heap w !! l = Some ys ->
         heap w2 !! l = Some ys /\ l <> r1 /\ l <> r2.
Proof.
  intros Hl. unfold IrisClient.getExcludedTopics, bind.
  destruct (spread_fresh _ xs w Hl) as (r1 & Hrun1 & Hfresh1).
  rewrite Hrun1.
  assert (Hne1 : r1 <> IrisClient.excludedTopics this)
    by (intros E; rewrite E, Hl in Hfresh1; discriminate).
  set (w1 := World (<[r1 := xs]> (heap w)) (trace w)).
  assert (Hl1 : heap w1 !! IrisClient.excludedTopics this = Some xs).
  { unfold w1. simpl. rewrite lookup_insert_ne by exact Hne1. exact Hl. }
  destruct (spread_fresh _ xs w1 Hl1) as (r2 & Hrun2 & Hfresh2).
  rewrite Hrun2.
  assert (Hne12 : r1 <> r2).
  { intros E. rewrite <- E in Hfresh2. unfold w1 in Hfresh2. simpl in Hfresh2.
    rewrite lookup_insert_eq in Hfresh2. discriminate. }
  exists r1, r2, (World (<[r2 := xs]> (heap w1)) (trace w1)).
  split; [reflexivity |]. split; [exact Hne12 |]. simpl.
  split; [rewrite lookup_insert_ne by (intros E; apply Hne12; symmetry; exact E);
          apply lookup_insert_eq |].
  split; [apply lookup_insert_eq |]. split; [reflexivity |].
  intros l ys Hys.
  assert (Hl_r1 : l <> r1) by (intros E; rewrite E, Hfresh1 in Hys; discriminate).
  assert (Hl_r2 : l <> r2).
  { intros E. rewrite <- E in Hfresh2. unfold w1 in Hfresh2. simpl in Hfresh2.
    rewrite lookup_insert_ne in Hfresh2 by (intros E'; apply Hl_r1; symmetry; exact E').
    rewrite Hys in Hfresh2. discriminate. }
  split; [| split; assumption].
  unfold w1. simpl. rewrite !lookup_insert_ne by congruence.
  exact Hys.
Qed.

Lemma getExcludedTopics_twice_witness :
  heap Samples.world0 !! IrisClient.excludedTopics Samples.client
  = Some Samples.topics
  /\ exists (r1 r2 : nat) (w2 : world),
       (let* a := IrisClient.getExcludedTopics Samples.client in
        let* b := IrisClient.getExcludedTopics Samples.client in
        ret (a, b)) Samples.world0 = (Normal (r1, r2), w2)
       /\ r1 <> r2.
Proof.
  assert (H0 : heap Samples.world0 !! IrisClient.excludedTopics Samples.client
               = Some Samples.topics) by reflexivity.
  split; [exact H0 |].
  destruct (getExcludedTopics_twice Samples.client Samples.topics Samples.world0 H0)
    as (r1 & r2 & w2 & Hrun & Hne & _).
  exists r1, r2, w2. split; assumption.
Defined.

(** X6.  [getExcludedTopics] reads the array the client shares with its
    caller: after the caller has pushed a topic onto the array it passed
    to the constructor, the copy returned ends with that topic. *)
Theorem getExcludedTopics_sees_callers_push key l (xs : list string) x w :
  heap w !! l = Some xs ->
  exists (r : nat) (w' : world),
    (Host.array_push l x >>
     IrisClient.getExcludedTopics (IrisClient.constructor key l)) w
    = (Normal r, w')
    /\ heap w' !! r = Some (xs ++ [x])%list
    /\ heap w' !! l = Some (xs ++ [x])%list.
Proof.
  intros Hl. unfold bind, Host.array_push. rewrite Hl.
  set (w1 := World (<[l := (xs ++ [x])%list]> (heap w)) (trace w)).
  assert (Hl1 : heap w1 !! l = Some (xs ++ [x])%list) by apply lookup_insert_eq.
  unfold IrisClient.getExcludedTopics. simpl.
  destruct (spread_fresh l _ w1 Hl1) as (r & Hrun & Hfresh).
  rewrite Hrun. do 2 eexists. split; [reflexivity |]. simpl.
  split; [apply lookup_insert_eq |].
  rewrite lookup_insert_ne by (intros E; rewrite E, Hl1 in Hfresh; discriminate).
  exact Hl1.
Qed.

Lemma getExcludedTopics_sees_callers_push_witness :
  heap Samples.world0 !! 0 = Some Samples.topics
  /\ exists (r : nat) (w' : world),
       (Host.array_push 0 "new-topic" >>
        IrisClient.getExcludedTopics Samples.client) Samples.world0
       = (Normal r, w')
       /\ heap w' !! r = Some ["politics"; "adult"; "new-topic"].
Proof.
  assert (H0 : heap Samples.world0 !! 0 = Some Samples.topics) by reflexivity.
  split; [exact H0 |].
  destruct (getExcludedTopics_sees_callers_push "test-api-key-12345" 0
              Samples.topics "new-topic" Samples.world0 H0)
    as (r & w' & Hrun & Hr & _).
  exists r, w'. split; [exact Hrun | exact Hr].
Defined.



(** X8.  The README's way of adding topics,
    [updateExcludedTopics([...getExcludedTopics(), ...extra])], leaves the
    client with the old topics followed by the new ones, held in an array
    of its own: the array the client had before keeps its elements, and
    nothing is logged or sent. *)
Theorem addExcludedTopics_appends this (xs extra : list string) w :
  heap w !! IrisClient.excludedTopics this = Some xs ->
  exists (this' : IrisClient.t) (w' : world),
    Usage.addExcludedTopics this extra w = (Normal this', w')
    /\ heap w' !! IrisClient.excludedTopics this' = Some (xs ++ extra)%list
    /\ heap w' !! IrisClient.excludedTopics this = Some xs
    /\ heap w !! IrisClient.excludedTopics this' = None
    /\ trace w' = trace w
    /\ IrisClient.apiKey this' = IrisClient.apiKey this
    /\ exists (r : nat) (w'' : world),
         IrisClient.getExcludedTopics this' w' = (Normal r, w'')
         /\ heap w'' !! r = Some (xs ++ extra)%list.
Proof.
  intros Hl. unfold Usage.addExcludedTopics, IrisClient.getExcludedTopics, bind.
  destruct (spread_fresh _ xs w Hl) as (r1 & Hrun1 & Hfresh1). rewrite Hrun1.
  set (w1 := World (<[r1 := xs]> (heap w)) (trace w)).
  assert (Hr1 : heap w1 !! r1 = Some xs) by apply lookup_insert_eq.
  destruct (spread_with_fresh r1 xs extra w1 Hr1) as (r2 & Hrun2 & Hfresh2).
  rewrite Hrun2. unfold ret.
  assert (Hne1 : IrisClient.excludedTopics this <> r1)
    by (intros E; rewrite <- E, Hl in Hfresh1; discriminate).
  assert (Hne2 : IrisClient.excludedTopics this <> r2).
  { intros E. rewrite <- E in Hfresh2. unfold w1 in Hfresh2. simpl in Hfresh2.
    rewrite lookup_insert_ne in Hfresh2 by congruence.
    rewrite Hl in Hfresh2. discriminate. }
  set (w2 := World (<[r2 := (xs ++ extra)%list]> (heap w1)) (trace w1)).
  assert (Hr2 : heap w2 !! r2 = Some (xs ++ extra)%list) by apply lookup_insert_eq.
  exists (IrisClient.updateExcludedTopics this r2), w2.
  split; [reflexivity |]. simpl.
  split; [apply lookup_insert_eq |].
  split; [rewrite !lookup_insert_ne by congruence; exact Hl |].
  split.
  { destruct (heap w !! r2) as [zs |] eqn:Hz; [| reflexivity].
    unfold w1 in Hfresh2. simpl in Hfresh2.
    destruct (decide (r1 = r2)) as [E | Hne].
    - rewrite <- E, lookup_insert_eq in Hfresh2. discriminate.
    - rewrite lookup_insert_ne, Hz in Hfresh2 by exact Hne. discriminate. }
  split; [reflexivity |]. split; [reflexivity |].
  destruct (spread_fresh r2 _ w2 Hr2) as (r & Hrun & _).
  exists r. eexists. split; [exact Hrun |]. simpl. apply lookup_insert_eq.
Qed.

Lemma addExcludedTopics_appends_witness :
  heap Samples.world0 !! IrisClient.excludedTopics Samples.client
  = Some Samples.topics
  /\ exists (this' : IrisClient.t) (w' : world),
       Usage.addExcludedTopics Samples.client ["gambling"; "casino"] Samples.world0
       = (Normal this', w')
       /\ heap w' !! IrisClient.excludedTopics this'
          = Some ["politics"; "adult"; "gambling"; "casino"].
Proof.
  assert (H0 : heap Samples.world0 !! IrisClient.excludedTopics Samples.client
               = Some Samples.topics) by reflexivity.
  split; [exact H0 |].
  destruct (addExcludedTopics_appends Samples.client Samples.topics
              ["gambling"; "casino"] Samples.world0 H0)
    as (this' & w' & Hrun & Hnew & _).
  exists this', w'. split; [exact Hrun | exact Hnew].
Defined.

(** ** Further properties of [IrisAd] *)


Lemma IrisAd_rerender_active_once_witness :
  active (Samples.props Samples.mockAd VUndefined) = true
  /\ Forall (fun later => active later = true)
       [Samples.props Samples.adWithEmptyClickUrl (VBool true)]
  /\ trace (snd (React.renders IrisAd.IrisAd []
                   [Samples.props Samples.mockAd VUndefined;
                    Samples.props Samples.adWithEmptyClickUrl (VBool true)]
                   Samples.world0))
     = [Fetch (VStr "https://api.example.com/impression?id=123")
          (obj [("method", VStr "GET"); ("mode", VStr "no-cors")])].
Proof.
  assert (H1 : active (Samples.props Samples.mockAd VUndefined) = true)
    by reflexivity.
  assert (H2 : Forall (fun later => active later = true)
                 [Samples.props Samples.adWithEmptyClickUrl (VBool true)])
    by (constructor; [reflexivity | constructor]).
  split; [exact H1 |]. split; [exact H2 |].
  rewrite (IrisAd_rerender_active_once _ _ Samples.world0 H1 H2). reflexivity.
Defined.








Lemma click_rendered props event w0 :
  Usage.click (Some (rendered props)) event w0
  = IrisAd.handleButtonClick (IrisAd.ad props) (IrisAd.onButtonClick props) event w0.
Proof. reflexivity. Qed.

(** X15.  What a render outputs and what a click does fit together: the
    output of an active render has exactly one button, and clicking it
    runs the click handling on the advertisement and the handler of that
    very render; the output of a render that is not active has no button
    to click. *)
Theorem click_on_rendered_button props current event w w0 :
  length current <= 1 ->
  exists (hooks : list React.Hook) (out : option React.node) (w' : world),
    React.render IrisAd.IrisAd current props w = (Normal (hooks, out), w')
    /\ Usage.click out event w0
       = if active props
         then IrisAd.handleButtonClick (IrisAd.ad props)
                (IrisAd.onButtonClick props) event w0
         else (Throw (React.Error "Unable to find an accessible element with the role button"),
               w0).
Proof.
  intros Hlen. rewrite render_IrisAd by exact Hlen.
  destruct (active props); do 3 eexists; (split; [reflexivity |]).
  - apply click_rendered.
  - reflexivity.
Qed.

Lemma click_on_rendered_button_witness :
  length (@nil React.Hook) <= 1
  /\ exists (hooks : list React.Hook) (out : option React.node) (w' : world),
       React.render IrisAd.IrisAd [] (Samples.props Samples.mockAd VUndefined)
         Samples.world0 = (Normal (hooks, out), w')
       /\ Usage.click out 1 Samples.world0
          = (Normal tt,
             World (heap Samples.world0)
               [WindowOpen
                  (VStr "https://api.example.com/click?id=123&redirect=https://example.com/landing")
                  "_blank" "noopener,noreferrer"]).
Proof.
  split; [simpl; lia |].
  destruct (click_on_rendered_button (Samples.props Samples.mockAd VUndefined) []
              1 Samples.world0 Samples.world0 (le_S 0 0 (le_n 0)))
    as (hooks & out & w' & Hrun & Hclick).
  exists hooks, out, w'. split; [exact Hrun |]. rewrite Hclick. reflexivity.
Defined.

(** ** The client and the component together *)



